(** * Server-side FCM sample ([messaging/messaging.py])

    A shallow embedding of the script and its verification.

    Python objects live in a store: a dict is a reference into a heap of
    insertion-ordered association lists, so the in-place updates made by
    [_build_override_message] are modelled as updates of shared objects.
    The module-level variable [FCM_URL], standard output, the credential
    library and the HTTP library are effects of a state-and-exception
    monad; what the outside world answers (key file, token exchange, HTTP
    response) is a parameter of every run. *)

From Stdlib Require Import ZArith Ascii String.
From stdpp Require Import base tactics option list strings pretty.


(** ** Python values and the object store *)

Abbreviation loc := nat (only parsing).

(** The values the script handles: [None], [str], [int] and references to
    dict objects.  A [str] is a sequence of code points below 256. *)
Inductive val :=
| VNone
| VStr (s : string)
| VInt (z : Z)
| VRef (l : loc).

(** A dict object: keys in insertion order, as Python keeps them. *)
Abbreviation dict := (list (string * val)) (only parsing).
Abbreviation heap := (list (list (string * val))) (only parsing).

Fixpoint assoc_get (k : string) (d : dict) : option val :=
  match d with
  | [] => None
  | (k', v) :: d' => if String.eqb k k' then Some v else assoc_get k d'
  end.

(** [d[k] = v]: an existing key keeps its position, a new key goes last. *)
Fixpoint assoc_set (k : string) (v : val) (d : dict) : dict :=
  match d with
  | [] => [(k, v)]
  | (k', v') :: d' =>
      if String.eqb k k' then (k, v) :: d' else (k', v') :: assoc_set k v d'
  end.

(** ** JSON trees and [json.dumps] *)

#[local] Set Warnings "-register-all".
Inductive json :=
| JNull
| JStr (s : string)
| JInt (z : Z)
| JObj (items : list (string * json)).

(** The tree a value denotes in a heap.  The fuel bounds the nesting depth;
    a heap of [n] objects without a cycle never nests deeper than [n]. *)
Fixpoint reify_fuel (n : nat) (h : heap) (v : val) : option json :=
  match v with
  | VNone => Some JNull
  | VStr s => Some (JStr s)
  | VInt z => Some (JInt z)
  | VRef l =>
      match n with
      | O => None
      | S n' =>
          d ← h !! l;
          items ← mapM (λ kv, j ← reify_fuel n' h kv.2; Some (kv.1, j)) d;
          Some (JObj items)
      end
  end.

Definition reify (h : heap) (v : val) : option json :=
  reify_fuel (S (List.length h)) h v.

Definition dquote : ascii := "034"%char.
Definition newline : string := String "010"%char EmptyString.

Definition hex_digit (n : nat) : ascii :=
  ascii_of_nat (if Nat.ltb n 10 then 48 + n else 87 + n)%nat.

(** [json.encoder.py_encode_basestring_ascii], one character: backslash,
    the quote and everything outside [' '..'~'] are escaped. *)
Definition escape_char (c : ascii) : string :=
  let n := nat_of_ascii c in
  if Ascii.eqb c "\"%char then "\\"
  else if Ascii.eqb c dquote then String "\"%char (String dquote EmptyString)
  else if Nat.eqb n 8 then "\b"
  else if Nat.eqb n 12 then "\f"
  else if Nat.eqb n 10 then "\n"
  else if Nat.eqb n 13 then "\r"
  else if Nat.eqb n 9 then "\t"
  else if (Nat.leb 32 n && Nat.leb n 126)%bool then String c EmptyString
  else "\u00" +:+ String (hex_digit (n / 16)) (String (hex_digit (n mod 16)) EmptyString).

Fixpoint escape (s : string) : string :=
  match s with
  | EmptyString => EmptyString
  | String c s' => escape_char c +:+ escape s'
  end.

Definition encode_str (s : string) : string :=
  String dquote (escape s) +:+ String dquote EmptyString.

Fixpoint spaces (n : nat) : string :=
  match n with
  | O => EmptyString
  | S n' => String " "%char (spaces n')
  end.

Fixpoint join (sep : string) (l : list string) : string :=
  match l with
  | [] => EmptyString
  | [x] => x
  | x :: l' => x +:+ sep +:+ join sep l'
  end.

(** [json.dumps(j, indent=indent)] at nesting depth [level] (Python 3:
    the item separator is [", "] without [indent] and [","] with it). *)
Fixpoint encode (indent : option nat) (level : nat) (j : json) : string :=
  match j with
  | JNull => "null"
  | JStr s => encode_str s
  | JInt z => pretty z
  | JObj [] => "{}"
  | JObj items =>
      let nl lv :=
        match indent with
        | Some w => newline +:+ spaces (w * lv)
        | None => EmptyString
        end in
      let sep :=
        match indent with
        | Some _ => "," +:+ nl (S level)
        | None => ", "
        end in
      "{" +:+ nl (S level)
        +:+ join sep
              (map (λ kv, encode_str kv.1 +:+ ": " +:+ encode indent (S level) kv.2)
                   items)
        +:+ nl level +:+ "}"
  end.

Definition dumps (indent : option nat) (j : json) : string := encode indent 0 j.


(** ** The effect monad *)

Inductive exn :=
| KeyError (key : string)
| TypeError (msg : string)
| ValueError (msg : string)
| LibraryError (name : string).

Inductive result (A : Type) :=
| Ok (a : A)
| Raise (e : exn).
Arguments Ok {A} a.
Arguments Raise {A} e.

(** What the script does to the outside world, in order. *)
Inductive event :=
| Print (line : string)
| LoadKeyFile (path : string) (scopes : list string)
| Refresh
| Post (url data : string) (headers : list (string * string)).

Record state := mkState {
  FCM_URL : string;          (* the module-level variable *)
  objects : heap;            (* the dict objects allocated so far *)
  trace : list event         (* events so far, oldest first *)
}.

Definition M (A : Type) : Type := state → result A * state.

#[export] Instance M_ret : MRet M := λ A a s, (Ok a, s).
#[export] Instance M_bind : MBind M := λ A B f m s,
  match m s with
  | (Ok a, s') => f a s'
  | (Raise e, s') => (Raise e, s')
  end.

Definition raise {A} (e : exn) : M A := λ s, (Raise e, s).
Definition emit (ev : event) : M unit :=
  λ s, (Ok (), mkState (FCM_URL s) (objects s) (trace s ++ [ev])).
Definition print (line : string) : M unit := emit (Print line).

Definition get_FCM_URL : M string := λ s, (Ok (FCM_URL s), s).
Definition set_FCM_URL (u : string) : M unit :=
  λ s, (Ok (), mkState u (objects s) (trace s)).

(** A dict display [{k1: v1, ...}]: a fresh object. *)
Definition new_dict (items : dict) : M val :=
  λ s, (Ok (VRef (List.length (objects s))),
        mkState (FCM_URL s) (objects s ++ [items]) (trace s)).

(** [d[k]] *)
Definition getitem (d : val) (k : string) : M val :=
  λ s, match d with
       | VRef l =>
           match objects s !! l with
           | Some items =>
               match assoc_get k items with
               | Some v => (Ok v, s)
               | None => (Raise (KeyError k), s)
               end
           | None => (Raise (TypeError "not subscriptable"), s)
           end
       | _ => (Raise (TypeError "not subscriptable"), s)
       end.

(** [d[k] = v] *)
Definition setitem (d : val) (k : string) (v : val) : M unit :=
  λ s, match d with
       | VRef l =>
           match objects s !! l with
           | Some items =>
               (Ok (), mkState (FCM_URL s)
                               (<[l := assoc_set k v items]> (objects s))
                               (trace s))
           | None => (Raise (TypeError "does not support item assignment"), s)
           end
       | _ => (Raise (TypeError "does not support item assignment"), s)
       end.

(** Truth value of an object, as [if x:] and [bool(x)] test it. *)
Definition is_truthy (h : heap) (v : val) : bool :=
  match v with
  | VNone => false
  | VStr s => negb (String.eqb s EmptyString)
  | VInt z => negb (Z.eqb z 0)
  | VRef l => match h !! l with
              | Some [] => false
              | _ => true
              end
  end.

Definition truthy (v : val) : M bool :=
  λ s, (Ok (is_truthy (objects s) v), s).

(** [prefix + v] for a [str] literal [prefix] *)
Definition str_add (prefix : string) (v : val) : M string :=
  match v with
  | VStr s => mret (prefix +:+ s)
  | _ => raise (TypeError "can only concatenate str to str")
  end.

(** [json.dumps(v, indent=indent)]; a value that is not a finite tree is
    refused ([check_circular]). *)
Definition json_dumps (indent : option nat) (v : val) : M string :=
  λ s, match reify (objects s) v with
       | Some j => (Ok (dumps indent j), s)
       | None => (Raise (ValueError "Circular reference detected"), s)
       end.

(** ** The outside world *)

Record response := mkResponse {
  status_code : Z;
  text : string
}.

(** [repr] of a [requests.Response] *)
Definition response_repr (resp : response) : string :=
  "<Response [" +:+ pretty (status_code resp) +:+ "]>".

(** The answers of the environment during one run: whether the key file
    loads, what the token exchange yields, and what the HTTP server (or the
    transport) answers to a request. *)
Record world := mkWorld {
  key_file : string → list string → result unit;
  token_exchange : result string;
  http_post : string → string → list (string * string) → result response
}.

Module Credentials.
Record t := mk { token : val }.
End Credentials.

(** [argparse.Namespace] for the three options: each is a [str], or [None]
    when the option is absent. *)
Module Namespace.
Record t := mk {
  message : option string;
  use_http : option string;
  token : option string
}.
End Namespace.

Definition pyopt (o : option string) : val :=
  match o with
  | Some s => VStr s
  | None => VNone
  end.

Definition val_eq_str (v : val) (lit : string) : bool :=
  match v with
  | VStr s => String.eqb s lit
  | _ => false
  end.

(** ** The module *)

Definition PROJECT_ID : string := "<YOUR-PROJECT-ID>".
Definition BASE_URL : string := "https://fcm.googleapis.com".
Definition FCM_ENDPOINT : string := "v1/projects/" +:+ PROJECT_ID +:+ "/messages:send".
Definition FCM_LEGACY_URL : string := BASE_URL +:+ "/fcm/send".
Definition SCOPES : list string :=
  ["https://www.googleapis.com/auth/firebase.messaging"].

(** The state after the module's top-level assignments. *)
Definition module_init : state :=
  mkState (BASE_URL +:+ "/" +:+ FCM_ENDPOINT) [] [].

Definition usage : string :=
  "Invalid command. Please use one of the following commands:" +:+ newline +:+
  "python messaging.py --message=common-message" +:+ newline +:+
  "python messaging.py --message=override-message".

(** An answer of the environment, as the outcome of the library call. *)
Definition lift {A} (r : result A) : M A := λ s, (r, s).

Section Script.

Variable W : world.

(** [service_account.Credentials.from_service_account_file] *)
Definition from_service_account_file (path : string) (scopes : list string)
  : M Credentials.t :=
  emit (LoadKeyFile path scopes);;
  lift (key_file W path scopes);;
  mret (Credentials.mk VNone).

(** [credentials.refresh(request)]: the token exchange sets the token. *)
Definition refresh (credentials : Credentials.t) : M Credentials.t :=
  emit Refresh;;
  tok ← lift (token_exchange W);
  mret (Credentials.mk (VStr tok)).

(** [requests.post(url, data=data, headers=headers)] *)
Definition requests_post (url data : string) (headers : list (string * string))
  : M response :=
  emit (Post url data headers);;
  lift (http_post W url data headers).

(** The [Request()] transport object handed to [refresh] has no effect of
    its own; [refresh] updates the credentials object, whose new state is
    passed on. *)
Definition _get_access_token : M val :=
  credentials ← from_service_account_file "service-account.json" SCOPES;
  credentials ← refresh credentials;
  mret (Credentials.token credentials).

Definition _send_fcm_message (fcm_message : val) (token : val) : M unit :=
  legacy ← truthy token;
  auth ← (if legacy : bool then
            auth ← str_add "key=" token;
            set_FCM_URL FCM_LEGACY_URL;;
            mret auth
          else
            access ← _get_access_token;
            str_add "Bearer " access);
  let headers :=
    [("Authorization", auth); ("Content-Type", "application/json; UTF-8")] in
  url ← get_FCM_URL;
  data ← json_dumps None fcm_message;
  resp ← requests_post url data headers;
  if Z.eqb (status_code resp) 200 then
    print "Message sent to Firebase for delivery, response:";;
    print (text resp)
  else
    print "Unable to send message to Firebase";;
    print (response_repr resp);;
    print (text resp).

Definition _build_common_message (token : val) (fcmv1 : bool) : M val :=
  notification ← new_dict [("title", VStr "FCM Notification");
                           ("body", VStr "Notification from FCM")];
  if fcmv1 then
    message ← new_dict [("token", token); ("notification", notification)];
    new_dict [("message", message)]
  else
    new_dict [("to", token); ("data", notification)].

Definition _build_override_message (token : val) (use_fcmv1 : bool) : M val :=
  fcm_message ← _build_common_message token use_fcmv1;
  aps ← new_dict [("badge", VInt 1)];
  payload ← new_dict [("aps", aps)];
  headers ← new_dict [("apns-priority", VStr "10")];
  apns_override ← new_dict [("payload", payload); ("headers", headers)];
  notification ← new_dict [("click_action", VStr "android.intent.action.MAIN")];
  android_override ← new_dict [("notification", notification)];
  inner ← getitem fcm_message "message";
  setitem inner "android" android_override;;
  inner ← getitem fcm_message "message";
  setitem inner "apns" apns_override;;
  mret fcm_message.

(** [x and x == lit], as the condition of an [if] *)
Definition and_eq (x : val) (lit : string) : M bool :=
  t ← truthy x;
  mret (t && val_eq_str x lit).

(** [main], after [parser.parse_args()] has produced [args]. *)
Definition main (args : Namespace.t) : M unit :=
  use_http ← truthy (pyopt (Namespace.use_http args));
  let use_fcmv1 := negb use_http in
  is_common ← and_eq (pyopt (Namespace.message args)) "common-message";
  if is_common : bool then
    common_message ←
      _build_common_message (pyopt (Namespace.token args)) use_fcmv1;
    print "FCM request body for message using common notification object:";;
    body ← json_dumps (Some 2%nat) common_message;
    print body;;
    _send_fcm_message common_message (pyopt (Namespace.use_http args))
  else
    is_override ← and_eq (pyopt (Namespace.message args)) "override-message";
    if is_override : bool then
      override_message ←
        _build_override_message (pyopt (Namespace.token args)) use_fcmv1;
      print "FCM request body for override message:";;
      body ← json_dumps (Some 2%nat) override_message;
      print body;;
      _send_fcm_message override_message (pyopt (Namespace.use_http args))
    else
      print usage.

End Script.


(** [if __name__ == '__main__': main()]: one run of the script, from the
    state the module's top level leaves. *)
Definition script (W : world) (args : Namespace.t) : result unit * state :=
  main W args module_init.

(** ** Vocabulary of the statements *)

Definition extends (h h' : heap) : Prop :=
  ∀ i d, h !! i = Some d → h' !! i = Some d.

(** The objects [_build_common_message] allocates when the heap holds [n]
    objects already. *)
Definition common_objects (n : nat) (T : val) (fcmv1 : bool) : heap :=
  [("title", VStr "FCM Notification"); ("body", VStr "Notification from FCM")]
  :: (if fcmv1 then
        [ [("token", T); ("notification", VRef n)];
          [("message", VRef (n + 1))] ]
      else
        [ [("to", T); ("data", VRef n)] ]).

Definition common_result (n : nat) (fcmv1 : bool) : val :=
  VRef (if fcmv1 then n + 2 else n + 1).

Definition notification_json : json :=
  JObj [("title", JStr "FCM Notification"); ("body", JStr "Notification from FCM")].

Definition common_json (jT : json) (fcmv1 : bool) : json :=
  if fcmv1 then
    JObj [("message", JObj [("token", jT); ("notification", notification_json)])]
  else
    JObj [("to", jT); ("data", notification_json)].

(** The objects [_build_override_message] leaves behind in v1 mode, after
    its two item assignments. *)
Definition override_objects (n : nat) (T : val) : heap :=
  [ [("title", VStr "FCM Notification"); ("body", VStr "Notification from FCM")];
    [("token", T); ("notification", VRef n);
     ("android", VRef (n + 8)); ("apns", VRef (n + 6))];
    [("message", VRef (n + 1))];
    [("badge", VInt 1)];
    [("aps", VRef (n + 3))];
    [("apns-priority", VStr "10")];
    [("payload", VRef (n + 4)); ("headers", VRef (n + 5))];
    [("click_action", VStr "android.intent.action.MAIN")];
    [("notification", VRef (n + 7))] ].

(** The objects it has allocated in legacy mode when it fails. *)
Definition override_legacy_objects (n : nat) (T : val) : heap :=
  common_objects n T false ++
  [ [("badge", VInt 1)];
    [("aps", VRef (n + 2))];
    [("apns-priority", VStr "10")];
    [("payload", VRef (n + 3)); ("headers", VRef (n + 4))];
    [("click_action", VStr "android.intent.action.MAIN")];
    [("notification", VRef (n + 6))] ].

Definition android_json : json :=
  JObj [("notification",
         JObj [("click_action", JStr "android.intent.action.MAIN")])].

Definition apns_json : json :=
  JObj [("payload", JObj [("aps", JObj [("badge", JInt 1)])]);
        ("headers", JObj [("apns-priority", JStr "10")])].

Definition is_print (ev : event) : Prop := ∃ line, ev = Print line.

(** What the dispatcher prints for a response. *)
Definition report (resp : response) : list event :=
  if Z.eqb (status_code resp) 200 then
    [Print "Message sent to Firebase for delivery, response:"; Print (text resp)]
  else
    [Print "Unable to send message to Firebase"; Print (response_repr resp);
     Print (text resp)].

(** The headers of a request with the given [Authorization] value. *)
Definition request_headers (auth : string) : list (string * string) :=
  [("Authorization", auth); ("Content-Type", "application/json; UTF-8")].

Definition token_json (args : Namespace.t) : json :=
  match Namespace.token args with
  | Some s => JStr s
  | None => JNull
  end.

Definition not_post (ev : event) : Prop :=
  ∀ url data headers, ev ≠ Post url data headers.

(** Sample worlds: everything succeeds and the server answers 200; the
    server answers 404; the key file is missing. *)
Definition W_ok : world :=
  mkWorld (λ _ _, Ok ()) (Ok "ya29.token") (λ _ _ _, Ok (mkResponse 200 "{}")).

Definition W_404 : world :=
  mkWorld (λ _ _, Ok ()) (Ok "ya29.token")
          (λ _ _ _, Ok (mkResponse 404 "Not Found")).

Definition W_nokey : world :=
  mkWorld (λ _ _, Raise (LibraryError "FileNotFoundError")) (Ok "ya29.token")
          (λ _ _ _, Ok (mkResponse 200 "{}")).

(** The server cannot be reached: [requests.post] raises. *)
Definition W_down : world :=
  mkWorld (λ _ _, Ok ()) (Ok "ya29.token")
          (λ _ _ _, Raise (LibraryError "ConnectionError")).

Definition is_postb (ev : event) : bool :=
  match ev with
  | Post _ _ _ => true
  | _ => false
  end.

(** The number of requests among some events. *)
Definition count_posts (evs : list event) : nat :=
  List.length (List.filter is_postb evs).

Definition is_refreshb (ev : event) : bool :=
  match ev with
  | Refresh => true
  | _ => false
  end.

Definition is_loadb (ev : event) : bool :=
  match ev with
  | LoadKeyFile _ _ => true
  | _ => false
  end.

(** The number of token exchanges, and of key-file loads. *)
Definition count_refreshes (evs : list event) : nat :=
  List.length (List.filter is_refreshb evs).

Definition count_loads (evs : list event) : nat :=
  List.length (List.filter is_loadb evs).

(** * Verification *)

(** ** Stepping through the monad *)

Lemma bind_run {A B} (m : M A) (f : A → M B) s a s' :
  m s = (Ok a, s') → (m ≫= f) s = f a s'.
Proof. intros H. unfold mbind, M_bind. by rewrite H. Qed.

Lemma bind_raise {A B} (m : M A) (f : A → M B) s e s' :
  m s = (Raise e, s') → (m ≫= f) s = (Raise e, s').
Proof. intros H. unfold mbind, M_bind. by rewrite H. Qed.

Lemma getitem_run s l d k v :
  objects s !! l = Some d → assoc_get k d = Some v →
  getitem (VRef l) k s = (Ok v, s).
Proof. intros Hl Hk. unfold getitem. by rewrite Hl, Hk. Qed.

Lemma getitem_missing s l d k :
  objects s !! l = Some d → assoc_get k d = None →
  getitem (VRef l) k s = (Raise (KeyError k), s).
Proof. intros Hl Hk. unfold getitem. by rewrite Hl, Hk. Qed.

Lemma setitem_run s l d k v :
  objects s !! l = Some d →
  setitem (VRef l) k v s =
    (Ok (), mkState (FCM_URL s) (<[l := assoc_set k v d]> (objects s)) (trace s)).
Proof. intros Hl. unfold setitem. by rewrite Hl. Qed.

(** ** Objects of a heap and the trees they denote *)

Lemma extends_app (h l : heap) : extends h (h ++ l).
Proof. intros i d Hi. by apply lookup_app_l_Some. Qed.

Lemma lookup_app_plus (h l : heap) (i : nat) :
  (h ++ l) !! (List.length h + i)%nat = l !! i.
Proof. rewrite lookup_app_r by lia. f_equal. lia. Qed.

Lemma lookup_app_here (h l : heap) d : (h ++ d :: l) !! List.length h = Some d.
Proof. by apply list_lookup_middle. Qed.

(** More fuel and more objects never change the tree of a value. *)
Lemma reify_fuel_weaken n : ∀ m (h h' : heap) v j,
  reify_fuel n h v = Some j → (n ≤ m)%nat → extends h h' →
  reify_fuel m h' v = Some j.
Proof.
  induction n as [|n IH]; intros m h h' v j Hr Hle Hext.
  - destruct v; simpl in Hr; try discriminate; destruct m; simpl; done.
  - destruct v; try (destruct m; simpl in *; done).
    destruct m as [|m]; [lia|]. simpl in *.
    destruct (h !! l) as [d|] eqn:Hl; [|discriminate].
    rewrite (Hext _ _ Hl). simpl in *.
    destruct (mapM _ d) as [items|] eqn:Hm in Hr; [|discriminate].
    simpl in Hr. injection Hr as <-.
    apply mapM_Some in Hm.
    assert (mapM (λ kv : string * val,
               reify_fuel m h' kv.2 ≫= λ j0 : json, Some (kv.1, j0)) d
            = Some items) as ->; [|done].
    apply mapM_Some. eapply Forall2_impl; [exact Hm|].
    intros [k v] [k' j'] Hkv. simpl in *.
    destruct (reify_fuel n h v) as [j0|] eqn:Hv; [|discriminate].
    rewrite (IH m h h' v j0 Hv); [done|lia|done].
Qed.

Lemma reify_frame (h h' : heap) v j n :
  reify h v = Some j → extends h h' → (S (List.length h) ≤ n)%nat →
  reify_fuel n h' v = Some j.
Proof. intros Hr Hext Hn. by eapply reify_fuel_weaken. Qed.

(** Allocation leaves the tree of every earlier value as it was. *)
Lemma reify_app (h l : heap) v j :
  reify h v = Some j → reify (h ++ l) v = Some j.
Proof.
  intros Hr. unfold reify. eapply reify_frame; [done|apply extends_app|].
  rewrite length_app. lia.
Qed.

Lemma reify_ref n (h : heap) l d :
  h !! l = Some d →
  reify_fuel (S n) h (VRef l) =
    items ← mapM (λ kv, j ← reify_fuel n h kv.2; Some (kv.1, j)) d;
    Some (JObj items).
Proof. intros Hl. simpl. by rewrite Hl. Qed.

Lemma reify_pyopt (h : heap) o :
  reify h (pyopt o) = Some match o with Some s => JStr s | None => JNull end.
Proof. by destruct o. Qed.

Lemma is_truthy_pyopt (h h' : heap) o :
  is_truthy h (pyopt o) = is_truthy h' (pyopt o).
Proof. by destruct o. Qed.

Ltac heap_lookup :=
  first [ apply lookup_app_here
        | rewrite lookup_app_plus; reflexivity ].

(** Evaluates [reify_fuel] along the references of freshly allocated
    objects; [HT] gives the tree of the one value that came from outside. *)
Ltac reify_go HT :=
  repeat first
    [ erewrite reify_ref by heap_lookup
    | erewrite (reify_frame _ _ _ _ _ HT)
        by (first [apply extends_app | simpl; lia])
    | progress cbn [mapM mbind option_bind mret option_ret fst snd] ].

Ltac reify_start :=
  unfold reify; rewrite length_app, Nat.add_comm;
  simpl List.length; cbn [Nat.add].

(** ** The builders, run on an arbitrary state *)

Lemma build_common_run T b s :
  _build_common_message T b s =
    (Ok (common_result (List.length (objects s)) b),
     mkState (FCM_URL s)
       (objects s ++ common_objects (List.length (objects s)) T b)
       (trace s)).
Proof.
  destruct s as [u h tr].
  unfold _build_common_message, mbind, M_bind, new_dict.
  destruct b; simpl; rewrite ?length_app; simpl;
    rewrite <- ?app_assoc, <- ?Nat.add_assoc; reflexivity.
Qed.

Lemma common_reify (h : heap) T jT b :
  reify h T = Some jT →
  reify (h ++ common_objects (List.length h) T b) (common_result (List.length h) b)
  = Some (common_json jT b).
Proof.
  intros HT. unfold common_objects, common_result.
  destruct b; reify_start; reify_go HT; reflexivity.
Qed.

Lemma build_override_v1_run T s :
  _build_override_message T true s =
    (Ok (VRef (List.length (objects s) + 2)),
     mkState (FCM_URL s)
       (objects s ++ override_objects (List.length (objects s)) T)
       (trace s)).
Proof.
  destruct s as [u h tr]. unfold _build_override_message.
  erewrite bind_run by apply build_common_run.
  unfold mbind, M_bind, new_dict, common_objects, common_result. simpl.
  rewrite !length_app. simpl. rewrite <- !app_assoc, <- !Nat.add_assoc. simpl.
  unfold getitem, setitem.
  repeat first [rewrite lookup_app_plus | rewrite insert_app_r | progress simpl].
  reflexivity.
Qed.

Lemma build_override_legacy_run T s :
  _build_override_message T false s =
    (Raise (KeyError "message"),
     mkState (FCM_URL s)
       (objects s ++ override_legacy_objects (List.length (objects s)) T)
       (trace s)).
Proof.
  destruct s as [u h tr]. unfold _build_override_message.
  erewrite bind_run by apply build_common_run.
  unfold mbind, M_bind, new_dict, common_objects, common_result. simpl.
  rewrite !length_app. simpl. rewrite <- !app_assoc, <- !Nat.add_assoc. simpl.
  unfold getitem. simpl. rewrite lookup_app_plus. reflexivity.
Qed.

Lemma override_reify (h : heap) T jT :
  reify h T = Some jT →
  reify (h ++ override_objects (List.length h) T) (VRef (List.length h + 2))
  = Some (JObj [("message",
                 JObj [("token", jT); ("notification", notification_json);
                       ("android", android_json); ("apns", apns_json)])]).
Proof.
  intros HT. unfold override_objects.
  reify_start; reify_go HT; reflexivity.
Qed.

(** ** The dispatcher and [main], run on an arbitrary state *)

Ltac send_unfold :=
  unfold _send_fcm_message, _get_access_token, from_service_account_file,
    refresh, requests_post, json_dumps, str_add, truthy, set_FCM_URL,
    get_FCM_URL, print, emit, lift, raise, mbind, M_bind, mret, M_ret;
  simpl.

Ltac norm_trace := simpl; rewrite <- ?app_assoc; reflexivity.

Lemma report_prints resp : Forall is_print (report resp).
Proof.
  unfold report. destruct (Z.eqb _ _); repeat constructor; by eexists.
Qed.

Lemma send_legacy_run W (M : val) (K : string) (s : state) (body : json) :
  K ≠ EmptyString →
  reify (objects s) M = Some body →
  _send_fcm_message W M (VStr K) s =
    let post := Post FCM_LEGACY_URL (dumps None body) (request_headers ("key=" +:+ K)) in
    match http_post W FCM_LEGACY_URL (dumps None body) (request_headers ("key=" +:+ K)) with
    | Ok resp =>
        (Ok (), mkState FCM_LEGACY_URL (objects s) (trace s ++ post :: report resp))
    | Raise e =>
        (Raise e, mkState FCM_LEGACY_URL (objects s) (trace s ++ [post]))
    end.
Proof.
  intros HK HM. destruct s as [u h tr]. simpl in *. send_unfold.
  apply String.eqb_neq in HK. rewrite HK. simpl. rewrite HM.
  unfold request_headers, report.
  destruct (http_post W _ _ _) as [resp|e]; [|norm_trace].
  destruct (Z.eqb _ _); norm_trace.
Qed.

Lemma send_bearer_run W (M tok : val) (s : state) (body : json) (t : string) :
  is_truthy (objects s) tok = false →
  reify (objects s) M = Some body →
  key_file W "service-account.json" SCOPES = Ok () →
  token_exchange W = Ok t →
  _send_fcm_message W M tok s =
    let post := Post (FCM_URL s) (dumps None body) (request_headers ("Bearer " +:+ t)) in
    let pre := [LoadKeyFile "service-account.json" SCOPES; Refresh; post] in
    match http_post W (FCM_URL s) (dumps None body) (request_headers ("Bearer " +:+ t)) with
    | Ok resp =>
        (Ok (), mkState (FCM_URL s) (objects s) (trace s ++ pre ++ report resp))
    | Raise e =>
        (Raise e, mkState (FCM_URL s) (objects s) (trace s ++ pre))
    end.
Proof.
  intros Hf HM Hk Ht. destruct s as [u h tr]. simpl in *. send_unfold.
  rewrite Hf, Hk, Ht. simpl. rewrite HM.
  unfold request_headers, report.
  destruct (http_post W _ _ _) as [resp|e]; [|norm_trace].
  destruct (Z.eqb _ _); norm_trace.
Qed.

Lemma send_bearer_fail W (M tok : val) (s : state) :
  is_truthy (objects s) tok = false →
  _send_fcm_message W M tok s =
    match key_file W "service-account.json" SCOPES with
    | Raise e =>
        (Raise e, mkState (FCM_URL s) (objects s)
                    (trace s ++ [LoadKeyFile "service-account.json" SCOPES]))
    | Ok _ =>
        match token_exchange W with
        | Raise e =>
            (Raise e, mkState (FCM_URL s) (objects s)
                        (trace s ++ [LoadKeyFile "service-account.json" SCOPES; Refresh]))
        | Ok _ => _send_fcm_message W M tok s
        end
    end.
Proof.
  intros Hf. destruct s as [u h tr]. simpl in *.
  destruct (key_file W _ _) as [[]|e1] eqn:Hk.
  - destruct (token_exchange W) as [t|e2] eqn:Ht; [done|].
    send_unfold. rewrite Hf, Hk, Ht. norm_trace.
  - send_unfold. rewrite Hf, Hk. norm_trace.
Qed.

Lemma and_eq_true o lit s :
  o = Some lit → lit ≠ EmptyString → and_eq (pyopt o) lit s = (Ok true, s).
Proof.
  intros -> Hlit. unfold and_eq, truthy, mbind, M_bind, mret, M_ret. simpl.
  apply String.eqb_neq in Hlit. by rewrite Hlit, String.eqb_refl.
Qed.

Lemma and_eq_false o lit s :
  o ≠ Some lit → and_eq (pyopt o) lit s = (Ok false, s).
Proof.
  intros Hne. unfold and_eq, truthy, mbind, M_bind, mret, M_ret. simpl.
  destruct o as [m|]; simpl; [|done].
  destruct (String.eqb_spec m lit) as [->|_]; [done|].
  by rewrite andb_false_r.
Qed.

Lemma main_common_run W args s :
  Namespace.message args = Some "common-message" →
  main W args s =
    let n := List.length (objects s) in
    let key := pyopt (Namespace.use_http args) in
    let v1 := negb (is_truthy (objects s) key) in
    _send_fcm_message W (common_result n v1) key
      (mkState (FCM_URL s)
         (objects s ++ common_objects n (pyopt (Namespace.token args)) v1)
         (trace s ++
            [Print "FCM request body for message using common notification object:";
             Print (dumps (Some 2%nat) (common_json (token_json args) v1))])).
Proof.
  intros Hm. unfold main.
  erewrite bind_run by reflexivity.
  erewrite bind_run by (by apply and_eq_true).
  cbn iota.
  erewrite bind_run by apply build_common_run.
  erewrite bind_run by reflexivity.
  erewrite bind_run.
  2:{ unfold json_dumps. simpl. rewrite (common_reify _ _ (token_json args)) by apply reify_pyopt. reflexivity. }
  erewrite bind_run by reflexivity.
  simpl. rewrite <- !app_assoc. reflexivity.
Qed.

Lemma main_override_v1_run W args s :
  Namespace.message args = Some "override-message" →
  is_truthy (objects s) (pyopt (Namespace.use_http args)) = false →
  main W args s =
    let n := List.length (objects s) in
    _send_fcm_message W (VRef (n + 2)) (pyopt (Namespace.use_http args))
      (mkState (FCM_URL s)
         (objects s ++ override_objects n (pyopt (Namespace.token args)))
         (trace s ++
            [Print "FCM request body for override message:";
             Print (dumps (Some 2%nat)
                      (JObj [("message",
                              JObj [("token", token_json args);
                                    ("notification", notification_json);
                                    ("android", android_json);
                                    ("apns", apns_json)])]))])).
Proof.
  intros Hm Hk. unfold main.
  erewrite bind_run by reflexivity.
  erewrite bind_run by (apply and_eq_false; by rewrite Hm).
  cbn iota.
  erewrite bind_run by (by apply and_eq_true).
  cbn iota. rewrite Hk. simpl negb.
  erewrite bind_run by apply build_override_v1_run.
  erewrite bind_run by reflexivity.
  erewrite bind_run.
  2:{ unfold json_dumps. simpl.
      rewrite (override_reify _ _ (token_json args)) by apply reify_pyopt.
      reflexivity. }
  erewrite bind_run by reflexivity.
  simpl. rewrite <- !app_assoc. reflexivity.
Qed.

Lemma main_override_legacy_run W args s :
  Namespace.message args = Some "override-message" →
  is_truthy (objects s) (pyopt (Namespace.use_http args)) = true →
  main W args s =
    (Raise (KeyError "message"),
     mkState (FCM_URL s)
       (objects s ++
          override_legacy_objects (List.length (objects s))
            (pyopt (Namespace.token args)))
       (trace s)).
Proof.
  intros Hm Hk. unfold main.
  erewrite bind_run by reflexivity.
  erewrite bind_run by (apply and_eq_false; by rewrite Hm).
  cbn iota.
  erewrite bind_run by (by apply and_eq_true).
  cbn iota. rewrite Hk. simpl negb.
  erewrite bind_raise by apply build_override_legacy_run.
  reflexivity.
Qed.

Lemma main_usage_run W args s :
  Namespace.message args ≠ Some "common-message" →
  Namespace.message args ≠ Some "override-message" →
  main W args s =
    (Ok (), mkState (FCM_URL s) (objects s) (trace s ++ [Print usage])).
Proof.
  intros Hc Ho. unfold main.
  erewrite bind_run by reflexivity.
  erewrite bind_run by (by apply and_eq_false).
  cbn iota.
  erewrite bind_run by (by apply and_eq_false).
  reflexivity.
Qed.


(** ** The message builders *)

(** C1. For every target token [T] (a value whose JSON tree is [jT]),
    [_build_common_message(T, True)] returns exactly the v1 shape
    [{message: {token: T, notification: {title, body}}}] and
    [_build_common_message(T, False)] returns exactly the legacy shape
    [{to: T, data: {title, body}}], with the fixed title and body and no
    other key. *)
Theorem build_common_message_shape (T : val) (s : state) (jT : json)
  (HT : reify (objects s) T = Some jT) :
  (∃ r s', _build_common_message T true s = (Ok r, s') ∧
     reify (objects s') r =
       Some (JObj [("message",
                    JObj [("token", jT);
                          ("notification",
                           JObj [("title", JStr "FCM Notification");
                                 ("body", JStr "Notification from FCM")])])]))
  ∧
  (∃ r s', _build_common_message T false s = (Ok r, s') ∧
     reify (objects s') r =
       Some (JObj [("to", jT);
                   ("data",
                    JObj [("title", JStr "FCM Notification");
                          ("body", JStr "Notification from FCM")])])).
Proof.
  split; eexists _, _; (split; [apply build_common_run|]); simpl.
  - apply (common_reify _ T jT true HT).
  - apply (common_reify _ T jT false HT).
Qed.

Lemma build_common_message_shape_witness :
  reify (objects module_init) (VStr "device-1") = Some (JStr "device-1") ∧
  ∃ r s', _build_common_message (VStr "device-1") false module_init = (Ok r, s') ∧
    reify (objects s') r =
      Some (JObj [("to", JStr "device-1");
                  ("data",
                   JObj [("title", JStr "FCM Notification");
                         ("body", JStr "Notification from FCM")])]).
Proof.
  split; [reflexivity|].
  apply (build_common_message_shape (VStr "device-1") module_init
           (JStr "device-1")).
  reflexivity.
Defined.

(** C2. For every target token [T], [_build_override_message(T, True)]
    returns the v1 common shape of [_build_common_message(T, True)] with
    exactly two more entries under [message]: the [android] block with the
    click action and the [apns] block with badge 1 and priority header
    ["10"]; the entries of the common shape are unchanged. *)
Theorem build_override_message_shape (T : val) (s : state) (jT : json)
  (HT : reify (objects s) T = Some jT) :
  ∃ rc sc fields r s',
    _build_common_message T true s = (Ok rc, sc) ∧
    reify (objects sc) rc = Some (JObj [("message", JObj fields)]) ∧
    _build_override_message T true s = (Ok r, s') ∧
    reify (objects s') r =
      Some (JObj
        [("message",
          JObj (fields ++
            [("android",
              JObj [("notification",
                     JObj [("click_action", JStr "android.intent.action.MAIN")])]);
             ("apns",
              JObj [("payload", JObj [("aps", JObj [("badge", JInt 1)])]);
                    ("headers", JObj [("apns-priority", JStr "10")])])]))]).
Proof.
  eexists _, _, _, _, _.
  split; [apply build_common_run|].
  split; [apply (common_reify _ T jT true HT)|].
  split; [apply build_override_v1_run|].
  apply (override_reify _ T jT HT).
Qed.

Lemma build_override_message_shape_witness :
  reify (objects module_init) VNone = Some JNull ∧
  ∃ rc sc fields r s',
    _build_common_message VNone true module_init = (Ok rc, sc) ∧
    reify (objects sc) rc = Some (JObj [("message", JObj fields)]) ∧
    _build_override_message VNone true module_init = (Ok r, s') ∧
    reify (objects s') r =
      Some (JObj
        [("message",
          JObj (fields ++
            [("android",
              JObj [("notification",
                     JObj [("click_action", JStr "android.intent.action.MAIN")])]);
             ("apns",
              JObj [("payload", JObj [("aps", JObj [("badge", JInt 1)])]);
                    ("headers", JObj [("apns-priority", JStr "10")])])]))]).
Proof.
  split; [reflexivity|].
  apply (build_override_message_shape VNone module_init JNull).
  reflexivity.
Defined.

(** C10. Both builders are pure and deterministic: a call prints nothing,
    performs no library call, leaves [FCM_URL] and every existing object as
    they were, and two successive calls with the same token return objects
    that denote the same tree, which only depends on the token and the
    flag. *)
Theorem builders_pure_deterministic (T : val) (b : bool) (s : state) (jT : json)
  (HT : reify (objects s) T = Some jT) :
  (∃ r1 s1 r2 s2 fresh1 fresh2,
     _build_common_message T b s = (Ok r1, s1) ∧
     _build_common_message T b s1 = (Ok r2, s2) ∧
     trace s1 = trace s ∧ trace s2 = trace s ∧
     FCM_URL s1 = FCM_URL s ∧ FCM_URL s2 = FCM_URL s ∧
     objects s1 = objects s ++ fresh1 ∧ objects s2 = objects s1 ++ fresh2 ∧
     reify (objects s1) r1 = Some (common_json jT b) ∧
     reify (objects s2) r1 = Some (common_json jT b) ∧
     reify (objects s2) r2 = Some (common_json jT b))
  ∧
  (∃ r1 s1 r2 s2 fresh1 fresh2 j,
     _build_override_message T true s = (Ok r1, s1) ∧
     _build_override_message T true s1 = (Ok r2, s2) ∧
     trace s1 = trace s ∧ trace s2 = trace s ∧
     FCM_URL s1 = FCM_URL s ∧ FCM_URL s2 = FCM_URL s ∧
     objects s1 = objects s ++ fresh1 ∧ objects s2 = objects s1 ++ fresh2 ∧
     reify (objects s1) r1 = Some j ∧
     reify (objects s2) r1 = Some j ∧
     reify (objects s2) r2 = Some j ∧
     j = JObj [("message",
                JObj [("token", jT); ("notification", notification_json);
                      ("android", android_json); ("apns", apns_json)])]).
Proof.
  split.
  - eexists _, _, _, _, _, _.
    split; [apply build_common_run|].
    split; [apply build_common_run|]. simpl.
    repeat (split; [reflexivity|]).
    split; [by apply common_reify|].
    split; [by apply reify_app, common_reify|].
    by apply common_reify, reify_app.
  - eexists _, _, _, _, _, _, _.
    split; [apply build_override_v1_run|].
    split; [apply build_override_v1_run|]. simpl.
    repeat (split; [reflexivity|]).
    split; [by apply override_reify|].
    split; [by apply reify_app, override_reify|].
    split; [by apply override_reify, reify_app|].
    reflexivity.
Qed.

Lemma builders_pure_deterministic_witness :
  reify (objects module_init) (VStr "device-1") = Some (JStr "device-1") ∧
  ∃ r1 s1 r2 s2 fresh1 fresh2,
     _build_common_message (VStr "device-1") true module_init = (Ok r1, s1) ∧
     _build_common_message (VStr "device-1") true s1 = (Ok r2, s2) ∧
     trace s1 = trace module_init ∧ trace s2 = trace module_init ∧
     FCM_URL s1 = FCM_URL module_init ∧ FCM_URL s2 = FCM_URL module_init ∧
     objects s1 = objects module_init ++ fresh1 ∧
     objects s2 = objects s1 ++ fresh2 ∧
     reify (objects s1) r1 = Some (common_json (JStr "device-1") true) ∧
     reify (objects s2) r1 = Some (common_json (JStr "device-1") true) ∧
     reify (objects s2) r2 = Some (common_json (JStr "device-1") true).
Proof.
  split; [reflexivity|].
  apply (builders_pure_deterministic (VStr "device-1") true module_init
           (JStr "device-1")).
  reflexivity.
Defined.

(** ** The dispatcher *)

(** Every run of the dispatcher posts at most once: it either fails before
    the request, or makes one request and reports the answer. *)
Lemma send_inv W (M tok : val) (s : state) r s' :
  _send_fcm_message W M tok s = (r, s') →
  ∃ pre,
    Forall not_post pre ∧
    ( (trace s' = trace s ++ pre ∧ ∃ e, r = Raise e)
    ∨ (∃ url data headers,
         match http_post W url data headers with
         | Ok resp =>
             r = Ok () ∧
             trace s' = trace s ++ pre ++ Post url data headers :: report resp
         | Raise e =>
             r = Raise e ∧
             trace s' = trace s ++ pre ++ [Post url data headers]
         end) ).
Proof.
  assert (Hnil : Forall not_post []) by constructor.
  assert (Hauth : Forall not_post
            [LoadKeyFile "service-account.json" SCOPES; Refresh])
    by (repeat constructor; intros ???; discriminate).
  assert (Hload : Forall not_post [LoadKeyFile "service-account.json" SCOPES])
    by (repeat constructor; intros ???; discriminate).
  destruct s as [u h tr]. send_unfold.
  destruct (is_truthy h tok) eqn:Hf.
  - destruct tok as [|K|z|l]; simpl;
      try (intros [= <- <-]; exists []; split; [done|left]; simpl;
           split; [by rewrite app_nil_r|by eexists]).
    destruct (reify h M) as [body|]; simpl;
      [|intros [= <- <-]; exists []; split; [done|left]; simpl;
        split; [by rewrite app_nil_r|by eexists]].
    destruct (http_post W _ _ _) as [resp|e] eqn:Hp.
    + intros Hrun. exists []. split; [done|right].
      eexists _, _, _. rewrite Hp. unfold report.
      destruct (Z.eqb _ _); injection Hrun as <- <-; split; try done; norm_trace.
    + intros [= <- <-]. exists []. split; [done|right].
      eexists _, _, _. rewrite Hp. split; [done|norm_trace].
  - destruct (key_file W _ _) as [[]|e1]; simpl;
      [|intros [= <- <-]; eexists; split; [exact Hload|left]; simpl;
        split; [done|by eexists]].
    destruct (token_exchange W) as [t|e2]; simpl;
      [|intros [= <- <-]; eexists; split; [exact Hauth|left]; simpl;
        split; [norm_trace|by eexists]].
    destruct (reify h M) as [body|]; simpl;
      [|intros [= <- <-]; eexists; split; [exact Hauth|left]; simpl;
        split; [norm_trace|by eexists]].
    destruct (http_post W _ _ _) as [resp|e] eqn:Hp.
    + intros Hrun. eexists. split; [exact Hauth|right].
      eexists _, _, _. rewrite Hp. unfold report.
      destruct (Z.eqb _ _); injection Hrun as <- <-; split; try done; norm_trace.
    + intros [= <- <-]. eexists. split; [exact Hauth|right].
      eexists _, _, _. rewrite Hp. split; [done|norm_trace].
Qed.

(** The events of a call extend the trace. *)
Lemma send_trace_extends W (M tok : val) (s : state) r s' :
  _send_fcm_message W M tok s = (r, s') → ∃ evs, trace s' = trace s ++ evs.
Proof.
  intros Hrun.
  destruct (send_inv W M tok s r s' Hrun) as (pre & _ & [[Htr _]|Hsent]).
  - by eexists.
  - destruct Hsent as (url & data & headers & Hcase).
    destruct (http_post W url data headers); destruct Hcase as [_ Htr];
      by eexists.
Qed.

(** C3. For every message body [M] and every non-empty legacy key [K],
    [_send_fcm_message(M, K)] posts to the legacy endpoint
    [https://fcm.googleapis.com/fcm/send] with the header [Authorization]
    equal to ["key="] followed by [K]; the request is the first thing it
    does and only prints follow, so the credential resolver (whose first
    step is to load the key file) is not invoked. *)
Theorem send_with_legacy_key W (M : val) (K : string) (s : state) (body : json)
  (HK : K ≠ EmptyString)
  (HM : reify (objects s) M = Some body) :
  ∃ r s' printed,
    _send_fcm_message W M (VStr K) s = (r, s') ∧
    trace s' =
      trace s ++
        Post "https://fcm.googleapis.com/fcm/send" (dumps None body)
             [("Authorization", "key=" +:+ K);
              ("Content-Type", "application/json; UTF-8")]
        :: printed ∧
    Forall is_print printed.
Proof.
  rewrite (send_legacy_run W M K s body HK HM). cbv zeta.
  destruct (http_post W _ _ _) as [resp|e].
  - eexists _, _, (report resp). split; [reflexivity|].
    split; [reflexivity|apply report_prints].
  - eexists _, _, []. split; [reflexivity|]. split; [reflexivity|constructor].
Qed.

Lemma send_with_legacy_key_witness :
  "ABC123" ≠ EmptyString ∧
  reify (objects module_init) (VStr "ping") = Some (JStr "ping") ∧
  ∃ r s' printed,
    _send_fcm_message W_ok (VStr "ping") (VStr "ABC123") module_init = (r, s') ∧
    trace s' =
      trace module_init ++
        Post "https://fcm.googleapis.com/fcm/send" (dumps None (JStr "ping"))
             [("Authorization", "key=ABC123");
              ("Content-Type", "application/json; UTF-8")]
        :: printed ∧
    Forall is_print printed.
Proof.
  split; [discriminate|]. split; [reflexivity|].
  apply (send_with_legacy_key W_ok (VStr "ping") "ABC123" module_init (JStr "ping"));
    [discriminate|reflexivity].
Defined.

(** C4, as amended.  For every message body [M], when no legacy key is
    given (the token argument is falsy), [_send_fcm_message] invokes the
    credential resolver (key file, then token exchange) and, with the
    token [t] it yields, posts with [Authorization] equal to ["Bearer "]
    followed by [t].  The request goes to the current value of the module
    variable [FCM_URL]: that is the v1 per-project endpoint provided
    [FCM_URL] still holds the value it had when the module was loaded. *)
Theorem send_with_bearer_token W (M tok : val) (s : state) (body : json) (t : string)
  (Hfalsy : is_truthy (objects s) tok = false)
  (HM : reify (objects s) M = Some body)
  (Hkey : key_file W "service-account.json" SCOPES = Ok ())
  (Htok : token_exchange W = Ok t) :
  FCM_URL module_init =
    "https://fcm.googleapis.com/v1/projects/<YOUR-PROJECT-ID>/messages:send" ∧
  ∃ r s' printed,
    _send_fcm_message W M tok s = (r, s') ∧
    Forall is_print printed ∧
    trace s' =
      trace s ++
        LoadKeyFile "service-account.json"
                    ["https://www.googleapis.com/auth/firebase.messaging"]
        :: Refresh
        :: Post (FCM_URL s) (dumps None body)
                [("Authorization", "Bearer " +:+ t);
                 ("Content-Type", "application/json; UTF-8")]
        :: printed ∧
    (FCM_URL s = FCM_URL module_init →
     trace s' =
       trace s ++
         LoadKeyFile "service-account.json"
                     ["https://www.googleapis.com/auth/firebase.messaging"]
         :: Refresh
         :: Post "https://fcm.googleapis.com/v1/projects/<YOUR-PROJECT-ID>/messages:send"
                 (dumps None body)
                 [("Authorization", "Bearer " +:+ t);
                  ("Content-Type", "application/json; UTF-8")]
         :: printed).
Proof.
  split; [reflexivity|].
  rewrite (send_bearer_run W M tok s body t Hfalsy HM Hkey Htok). cbv zeta.
  destruct (http_post W _ _ _) as [resp|e].
  - eexists _, _, (report resp). split; [reflexivity|].
    split; [apply report_prints|]. split; [reflexivity|].
    intros ->. reflexivity.
  - eexists _, _, []. split; [reflexivity|]. split; [constructor|].
    split; [reflexivity|]. intros ->. reflexivity.
Qed.

Lemma send_with_bearer_token_witness :
  is_truthy (objects module_init) VNone = false ∧
  ∃ r s' printed,
    _send_fcm_message W_ok (VStr "ping") VNone module_init = (r, s') ∧
    Forall is_print printed ∧
    trace s' =
      trace module_init ++
        LoadKeyFile "service-account.json"
                    ["https://www.googleapis.com/auth/firebase.messaging"]
        :: Refresh
        :: Post (FCM_URL module_init) (dumps None (JStr "ping"))
                [("Authorization", "Bearer ya29.token");
                 ("Content-Type", "application/json; UTF-8")]
        :: printed ∧
    (FCM_URL module_init = FCM_URL module_init →
     trace s' =
       trace module_init ++
         LoadKeyFile "service-account.json"
                     ["https://www.googleapis.com/auth/firebase.messaging"]
         :: Refresh
         :: Post "https://fcm.googleapis.com/v1/projects/<YOUR-PROJECT-ID>/messages:send"
                 (dumps None (JStr "ping"))
                 [("Authorization", "Bearer ya29.token");
                  ("Content-Type", "application/json; UTF-8")]
         :: printed).
Proof.
  split; [reflexivity|].
  apply (send_with_bearer_token W_ok (VStr "ping") VNone module_init
           (JStr "ping") "ya29.token"); reflexivity.
Defined.

(** C4 as stated fails once [FCM_URL] has been reassigned: after a send
    with the legacy key ["ABC123"], a send of the same message without a
    key resolves a bearer token and posts it to the legacy endpoint; the
    process never posts to the v1 endpoint. *)
Lemma send_bearer_after_legacy_counterexample :
  let built := _build_common_message (VStr "device-1") true module_init in
  let M := VRef 2 in
  let first := _send_fcm_message W_ok M (VStr "ABC123") built.2 in
  let second := _send_fcm_message W_ok M VNone first.2 in
  (built.1 = Ok M ∧
   first.1 = Ok () ∧
   is_truthy (objects first.2) VNone = false ∧
   reify (objects first.2) M = Some (common_json (JStr "device-1") true) ∧
   key_file W_ok "service-account.json" SCOPES = Ok () ∧
   token_exchange W_ok = Ok "ya29.token") ∧
  second.1 = Ok () ∧
  trace second.2 =
    trace first.2 ++
      [LoadKeyFile "service-account.json" SCOPES;
       Refresh;
       Post "https://fcm.googleapis.com/fcm/send"
            (dumps None (common_json (JStr "device-1") true))
            [("Authorization", "Bearer ya29.token");
             ("Content-Type", "application/json; UTF-8")];
       Print "Message sent to Firebase for delivery, response:";
       Print "{}"] ∧
  ¬ (∃ data headers,
       Post "https://fcm.googleapis.com/v1/projects/<YOUR-PROJECT-ID>/messages:send"
            data headers ∈ trace second.2).
Proof.
  cbv zeta. split; [|split; [|split]].
  - repeat split; vm_compute; reflexivity.
  - vm_compute; reflexivity.
  - vm_compute; reflexivity.
  - intros (data & headers & Hin). vm_compute in Hin.
    repeat (apply elem_of_cons in Hin as [Hin|Hin]; [discriminate|]).
    by apply elem_of_nil in Hin.
Qed.

(** C6. Whenever the request of [_send_fcm_message] is answered with a
    response, the call returns normally; it has made that one request only
    (no retry); and after it, it prints the success line and the response
    text when the status is 200, and otherwise the failure line, the
    response object and the response text. *)
Theorem send_reports_outcome W (M tok : val) (s : state) r s' evs
    url data headers resp
  (Hrun : _send_fcm_message W M tok s = (r, s'))
  (Hevs : trace s' = trace s ++ evs)
  (Hpost : Post url data headers ∈ evs)
  (Hresp : http_post W url data headers = Ok resp) :
  r = Ok () ∧
  ∃ pre,
    Forall not_post pre ∧
    evs = pre ++ Post url data headers ::
            (if Z.eqb (status_code resp) 200 then
               [Print "Message sent to Firebase for delivery, response:";
                Print (text resp)]
             else
               [Print "Unable to send message to Firebase";
                Print (response_repr resp);
                Print (text resp)]).
Proof.
  destruct (send_inv W M tok s r s' Hrun) as (pre & Hpre & [[Htr _]|Hsent]).
  - rewrite Hevs in Htr. apply app_inv_head in Htr. subst evs.
    rewrite Forall_forall in Hpre. by destruct (Hpre _ Hpost url data headers).
  - destruct Hsent as (url' & data' & headers' & Hcase).
    assert (Hin : ∀ tl, Forall is_print tl →
              Post url data headers ∈ pre ++ Post url' data' headers' :: tl →
              url' = url ∧ data' = data ∧ headers' = headers).
    { intros tl Htl [Hin|Hin]%elem_of_app.
      - rewrite Forall_forall in Hpre. by destruct (Hpre _ Hin url data headers).
      - apply elem_of_cons in Hin as [[= -> -> ->]|Hin]; [done|].
        rewrite Forall_forall in Htl. by destruct (Htl _ Hin). }
    destruct (http_post W url' data' headers') as [resp'|e] eqn:Hp.
    + destruct Hcase as [-> Htr]. rewrite Hevs in Htr.
      apply app_inv_head in Htr. subst evs.
      destruct (Hin _ (report_prints resp') Hpost) as (-> & -> & ->).
      rewrite Hresp in Hp. injection Hp as <-.
      split; [done|]. by exists pre.
    + destruct Hcase as [-> Htr]. rewrite Hevs in Htr.
      apply app_inv_head in Htr. subst evs.
      destruct (Hin [] (Forall_nil_2 _) Hpost) as (-> & -> & ->).
      congruence.
Qed.

Lemma send_reports_outcome_witness :
  _send_fcm_message W_404 (VStr "ping") (VStr "ABC123") module_init =
    (Ok (),
     mkState FCM_LEGACY_URL []
       [Post FCM_LEGACY_URL (dumps None (JStr "ping")) (request_headers "key=ABC123");
        Print "Unable to send message to Firebase";
        Print "<Response [404]>";
        Print "Not Found"]) ∧
  ∃ pre,
    Forall not_post pre ∧
    [Post FCM_LEGACY_URL (dumps None (JStr "ping")) (request_headers "key=ABC123");
     Print "Unable to send message to Firebase";
     Print "<Response [404]>";
     Print "Not Found"]
    = pre ++ Post FCM_LEGACY_URL (dumps None (JStr "ping"))
               (request_headers "key=ABC123") ::
        [Print "Unable to send message to Firebase";
         Print (response_repr (mkResponse 404 "Not Found"));
         Print (text (mkResponse 404 "Not Found"))].
Proof.
  split; [vm_compute; reflexivity|].
  refine (proj2 (send_reports_outcome W_404 (VStr "ping") (VStr "ABC123")
                   module_init (Ok ()) _ _ _ _ _ (mkResponse 404 "Not Found")
                   _ _ _ _)).
  - vm_compute; reflexivity.
  - reflexivity.
  - apply list_elem_of_here.
  - reflexivity.
Defined.

(** ** Credential failures *)

(** C7. When no legacy key is supplied and credential resolution fails
    with an error [e] (the key file does not load, or the token exchange
    fails), [e] comes out of [_get_access_token], out of
    [_send_fcm_message] and out of [main], and ends the script; each step
    of the resolver has been tried once, and no request has been made. *)
Theorem credential_failure_propagates W (M tok : val) (s : state)
    (args : Namespace.t) (e : exn)
  (Hfalsy : is_truthy (objects s) tok = false)
  (Hfail : key_file W "service-account.json" SCOPES = Raise e
           ∨ (key_file W "service-account.json" SCOPES = Ok ()
              ∧ token_exchange W = Raise e))
  (Hmsg : Namespace.message args = Some "common-message"
          ∨ Namespace.message args = Some "override-message")
  (Hkey : is_truthy [] (pyopt (Namespace.use_http args)) = false) :
  let attempt :=
    if key_file W "service-account.json" SCOPES is Raise _
    then [LoadKeyFile "service-account.json" SCOPES]
    else [LoadKeyFile "service-account.json" SCOPES; Refresh] in
  (∃ s', _get_access_token W s = (Raise e, s') ∧ trace s' = trace s ++ attempt)
  ∧ (∃ s', _send_fcm_message W M tok s = (Raise e, s')
           ∧ trace s' = trace s ++ attempt)
  ∧ (∃ s' printed, script W args = (Raise e, s')
           ∧ Forall is_print printed
           ∧ trace s' = printed ++ attempt).
Proof.
  assert (Hsend : ∀ M' tok' s0, is_truthy (objects s0) tok' = false →
            ∃ s', _send_fcm_message W M' tok' s0 = (Raise e, s') ∧
              trace s' = trace s0 ++
                (if key_file W "service-account.json" SCOPES is Raise _
                 then [LoadKeyFile "service-account.json" SCOPES]
                 else [LoadKeyFile "service-account.json" SCOPES; Refresh])).
  { intros M' tok' s0 Hf. rewrite (send_bearer_fail W M' tok' s0 Hf).
    destruct Hfail as [Hk|[Hk Ht]]; rewrite Hk; [|rewrite Ht];
      by eexists. }
  cbv zeta. split; [|split].
  - destruct s as [u h tr].
    unfold _get_access_token, from_service_account_file, refresh, emit, lift,
      mbind, M_bind, mret, M_ret. simpl.
    destruct Hfail as [Hk|[Hk Ht]]; rewrite Hk; [|rewrite Ht]; simpl;
      eexists; (split; [reflexivity|norm_trace]).
  - by apply Hsend.
  - assert (Hk' : ∀ h : heap, is_truthy h (pyopt (Namespace.use_http args)) = false).
    { intros h. by destruct (Namespace.use_http args). }
    unfold script. destruct Hmsg as [Hm|Hm].
    + rewrite (main_common_run W args module_init Hm). cbv zeta.
      edestruct Hsend as (s' & -> & Htr); [apply Hk'|].
      eexists s', _. split; [done|]. split; [|exact Htr].
      repeat constructor; by eexists.
    + rewrite (main_override_v1_run W args module_init Hm (Hk' _)). cbv zeta.
      edestruct Hsend as (s' & -> & Htr); [apply Hk'|].
      eexists s', _. split; [done|]. split; [|exact Htr].
      repeat constructor; by eexists.
Qed.

Lemma credential_failure_propagates_witness :
  ∃ s', _send_fcm_message W_nokey (VStr "ping") VNone module_init
          = (Raise (LibraryError "FileNotFoundError"), s')
        ∧ trace s' = trace module_init
                       ++ [LoadKeyFile "service-account.json" SCOPES].
Proof.
  refine (proj1 (proj2 (credential_failure_propagates W_nokey (VStr "ping") VNone
            module_init (Namespace.mk (Some "common-message") None (Some "device-1"))
            (LibraryError "FileNotFoundError") _ _ _ _))).
  - reflexivity.
  - left. reflexivity.
  - left. reflexivity.
  - reflexivity.
Defined.

(** ** The command line *)

(** C5. For every target token [T], [_build_override_message(T, False)]
    raises [KeyError('message')]: the legacy shape has no [message] key.
    So [main] with [--message=override-message] and a non-empty
    [--use-http] ends with that error, having printed nothing and made no
    request. *)
Theorem override_legacy_raises W (T : val) (s : state) (args : Namespace.t)
    (K : string)
  (Hmsg : Namespace.message args = Some "override-message")
  (Hkey : Namespace.use_http args = Some K)
  (HK : K ≠ EmptyString) :
  (∃ s', _build_override_message T false s = (Raise (KeyError "message"), s')
         ∧ trace s' = trace s ∧ FCM_URL s' = FCM_URL s)
  ∧ (∃ s', main W args s = (Raise (KeyError "message"), s')
           ∧ trace s' = trace s ∧ FCM_URL s' = FCM_URL s).
Proof.
  split.
  - rewrite build_override_legacy_run. by eexists.
  - rewrite (main_override_legacy_run W args s Hmsg).
    + by eexists.
    + rewrite Hkey. simpl. apply String.eqb_neq in HK. by rewrite HK.
Qed.

Lemma override_legacy_raises_witness :
  "ABC123" ≠ EmptyString ∧
  ∃ s', script W_ok (Namespace.mk (Some "override-message") (Some "ABC123")
                       (Some "device-1"))
          = (Raise (KeyError "message"), s')
        ∧ trace s' = [] ∧ FCM_URL s' = FCM_URL module_init.
Proof.
  split; [discriminate|].
  refine (proj2 (override_legacy_raises W_ok VNone module_init
            (Namespace.mk (Some "override-message") (Some "ABC123")
               (Some "device-1")) "ABC123" _ _ _)).
  - reflexivity.
  - reflexivity.
  - discriminate.
Defined.

(** C8. For every [--message] value other than ["common-message"] and
    ["override-message"], an absent one included, [main] prints the usage
    text and returns normally: no object is built, no library call and no
    request is made, and [FCM_URL] is not touched. *)
Theorem unrecognized_message_prints_usage W (args : Namespace.t) (s : state)
  (Hc : Namespace.message args ≠ Some "common-message")
  (Ho : Namespace.message args ≠ Some "override-message") :
  main W args s =
    (Ok (),
     mkState (FCM_URL s) (objects s)
       (trace s ++
          [Print ("Invalid command. Please use one of the following commands:"
                  +:+ newline +:+
                  "python messaging.py --message=common-message"
                  +:+ newline +:+
                  "python messaging.py --message=override-message")])).
Proof. exact (main_usage_run W args s Hc Ho). Qed.

Lemma unrecognized_message_prints_usage_witness :
  Namespace.message (Namespace.mk None (Some "ABC123") None)
    ≠ Some "common-message" ∧
  script W_ok (Namespace.mk None (Some "ABC123") None) =
    (Ok (), mkState (FCM_URL module_init) [] [Print usage]).
Proof.
  split; [discriminate|].
  apply (unrecognized_message_prints_usage W_ok
           (Namespace.mk None (Some "ABC123") None) module_init);
    discriminate.
Defined.

(** C9, as amended.  On every invocation with a recognized [--message]
    value on which the builder returns a body, that is [common-message] in
    either mode and [override-message] without a legacy key, the built
    body is printed as [json.dumps(body, indent=2)] before the dispatcher
    starts: [main] runs the builder, prints the header line and the
    pretty-printed tree of the object the builder returned, and only then
    calls [_send_fcm_message] on that same object; so the events of the
    invocation start with the two printed lines and everything the
    dispatcher does comes after them. *)
Theorem body_printed_before_dispatch W (args : Namespace.t) (s : state) r s'
  (Hmsg : Namespace.message args = Some "common-message"
          ∨ (Namespace.message args = Some "override-message"
             ∧ is_truthy [] (pyopt (Namespace.use_http args)) = false))
  (Hrun : main W args s = (r, s')) :
  ∃ msg s_b body header evs,
    ( (Namespace.message args = Some "common-message" ∧
       _build_common_message (pyopt (Namespace.token args))
         (negb (is_truthy [] (pyopt (Namespace.use_http args)))) s
         = (Ok msg, s_b) ∧
       header = "FCM request body for message using common notification object:")
    ∨ (Namespace.message args = Some "override-message" ∧
       _build_override_message (pyopt (Namespace.token args)) true s
         = (Ok msg, s_b) ∧
       header = "FCM request body for override message:") ) ∧
    trace s_b = trace s ∧
    reify (objects s_b) msg = Some body ∧
    _send_fcm_message W msg (pyopt (Namespace.use_http args))
      (mkState (FCM_URL s_b) (objects s_b)
         (trace s ++ [Print header; Print (dumps (Some 2%nat) body)]))
      = (r, s') ∧
    trace s' =
      trace s ++ Print header :: Print (dumps (Some 2%nat) body) :: evs.
Proof.
  destruct Hmsg as [Hm|[Hm Hk]].
  - rewrite (main_common_run W args s Hm) in Hrun. cbv zeta in Hrun.
    rewrite (is_truthy_pyopt _ [] _) in Hrun.
    destruct (send_trace_extends _ _ _ _ _ _ Hrun) as [evs Hevs].
    simpl in Hevs. rewrite <- app_assoc in Hevs.
    eexists _, _, _, _, evs.
    split; [left; split; [done|]; split; [apply build_common_run|reflexivity]|].
    split; [reflexivity|].
    split; [apply common_reify, reify_pyopt|].
    split; [exact Hrun|exact Hevs].
  - rewrite (is_truthy_pyopt [] (objects s) _) in Hk.
    rewrite (main_override_v1_run W args s Hm Hk) in Hrun. cbv zeta in Hrun.
    destruct (send_trace_extends _ _ _ _ _ _ Hrun) as [evs Hevs].
    simpl in Hevs. rewrite <- app_assoc in Hevs.
    eexists _, _, _, _, evs.
    split; [right; split; [done|]; split; [apply build_override_v1_run|reflexivity]|].
    split; [reflexivity|].
    split; [apply override_reify, reify_pyopt|].
    split; [exact Hrun|exact Hevs].
Qed.

Lemma body_printed_before_dispatch_witness :
  let args := Namespace.mk (Some "common-message") (Some "ABC123") None in
  let run := script W_ok args in
  ∃ msg s_b body header evs,
    ( (Namespace.message args = Some "common-message" ∧
       _build_common_message (pyopt (Namespace.token args))
         (negb (is_truthy [] (pyopt (Namespace.use_http args)))) module_init
         = (Ok msg, s_b) ∧
       header = "FCM request body for message using common notification object:")
    ∨ (Namespace.message args = Some "override-message" ∧
       _build_override_message (pyopt (Namespace.token args)) true module_init
         = (Ok msg, s_b) ∧
       header = "FCM request body for override message:") ) ∧
    trace s_b = trace module_init ∧
    reify (objects s_b) msg = Some body ∧
    _send_fcm_message W_ok msg (pyopt (Namespace.use_http args))
      (mkState (FCM_URL s_b) (objects s_b)
         (trace module_init ++ [Print header; Print (dumps (Some 2%nat) body)]))
      = (run.1, run.2) ∧
    trace run.2 =
      trace module_init ++
        Print header :: Print (dumps (Some 2%nat) body) :: evs.
Proof.
  cbv zeta.
  apply (body_printed_before_dispatch W_ok
           (Namespace.mk (Some "common-message") (Some "ABC123") None)
           module_init).
  - left. reflexivity.
  - vm_compute. reflexivity.
Defined.

(** C9 as stated fails on one recognized invocation:
    [--message=override-message --use-http=ABC123] is recognized, yet the
    run ends in the builder's [KeyError] and prints nothing at all. *)
Lemma body_not_printed_counterexample :
  let args := Namespace.mk (Some "override-message") (Some "ABC123")
                (Some "device-1") in
  Namespace.message args = Some "override-message" ∧
  (script W_ok args).1 = Raise (KeyError "message") ∧
  trace (script W_ok args).2 = [] ∧
  ¬ (∃ line, Print line ∈ trace (script W_ok args).2).
Proof.
  cbv zeta. split; [reflexivity|]. split; [vm_compute; reflexivity|].
  split; [vm_compute; reflexivity|].
  intros (line & Hin). vm_compute in Hin. by apply elem_of_nil in Hin.
Qed.

(** ** The script on concrete command lines *)

(** What [json.dumps(..., indent=2)] prints for the legacy body without a
    target: two spaces per nesting level. *)
Example pretty_legacy_body :
  dumps (Some 2%nat) (common_json JNull false) =
    "{" +:+ newline +:+
    "  " +:+ encode_str "to" +:+ ": null," +:+ newline +:+
    "  " +:+ encode_str "data" +:+ ": {" +:+ newline +:+
    "    " +:+ encode_str "title" +:+ ": " +:+ encode_str "FCM Notification"
           +:+ "," +:+ newline +:+
    "    " +:+ encode_str "body" +:+ ": " +:+ encode_str "Notification from FCM"
           +:+ newline +:+
    "  }" +:+ newline +:+
    "}".
Proof. vm_compute. reflexivity. Qed.

(** [--message=common-message --use-http=ABC123 --token=device-1] with a
    server that answers 404. *)
Example script_common_legacy_404 :
  script W_404 (Namespace.mk (Some "common-message") (Some "ABC123")
                  (Some "device-1")) =
    (Ok (),
     mkState "https://fcm.googleapis.com/fcm/send"
       (common_objects 0 (VStr "device-1") false)
       [Print "FCM request body for message using common notification object:";
        Print (dumps (Some 2%nat) (common_json (JStr "device-1") false));
        Post "https://fcm.googleapis.com/fcm/send"
             (dumps None (common_json (JStr "device-1") false))
             [("Authorization", "key=ABC123");
              ("Content-Type", "application/json; UTF-8")];
        Print "Unable to send message to Firebase";
        Print "<Response [404]>";
        Print "Not Found"]).
Proof. vm_compute. reflexivity. Qed.

(** [--message=override-message --token=device-1], everything succeeds. *)
Example script_override_v1_ok :
  script W_ok (Namespace.mk (Some "override-message") None (Some "device-1")) =
    (Ok (),
     mkState "https://fcm.googleapis.com/v1/projects/<YOUR-PROJECT-ID>/messages:send"
       (override_objects 0 (VStr "device-1"))
       (let body :=
          JObj [("message",
                 JObj [("token", JStr "device-1");
                       ("notification", notification_json);
                       ("android", android_json); ("apns", apns_json)])] in
        [Print "FCM request body for override message:";
         Print (dumps (Some 2%nat) body);
         LoadKeyFile "service-account.json" SCOPES;
         Refresh;
         Post "https://fcm.googleapis.com/v1/projects/<YOUR-PROJECT-ID>/messages:send"
              (dumps None body)
              [("Authorization", "Bearer ya29.token");
               ("Content-Type", "application/json; UTF-8")];
         Print "Message sent to Firebase for delivery, response:";
         Print "{}"])).
Proof. vm_compute. reflexivity. Qed.

(** * Further properties of the code *)

Lemma app_eq_self {A} (l evs : list A) : l = l ++ evs → evs = [].
Proof.
  intros H. rewrite <- (app_nil_r l) in H at 1. by apply app_inv_head in H.
Qed.

(** Case analysis over every path of [_send_fcm_message]: each goal is left
    with the concrete result and final state of one path. *)
Ltac send_paths W h M tok :=
  send_unfold;
  destruct (is_truthy h tok) eqn:?;
  [ destruct tok; simpl
  | destruct (key_file W _ _) as [[]|?] eqn:?; simpl;
    [ destruct (token_exchange W) as [?|?] eqn:?; simpl | ] ];
  try (destruct (reify h M) eqn:?; simpl);
  try (destruct (http_post W _ _ _) eqn:?; simpl);
  try (destruct (Z.eqb _ _) eqn:?; simpl);
  intros [= <- <-]; simpl in *.

Ltac trace_eq H :=
  rewrite <- ?app_assoc in H;
  first [ apply app_inv_head in H | apply app_eq_self in H ];
  simpl in H; subst.

Ltac in_list H :=
  repeat (apply elem_of_cons in H as [H|H];
          [first [discriminate | injection H as -> -> ->]|]);
  try (by apply elem_of_nil in H).

Lemma send_request_inv W (M tok : val) (s : state) r s' evs url data headers :
  _send_fcm_message W M tok s = (r, s') →
  trace s' = trace s ++ evs →
  Post url data headers ∈ evs →
  (∃ body, reify (objects s) M = Some body ∧ data = dumps None body) ∧
  ( (∃ K, tok = VStr K ∧ K ≠ EmptyString ∧ url = FCM_LEGACY_URL ∧
          headers = request_headers ("key=" +:+ K))
  ∨ (is_truthy (objects s) tok = false ∧
     ∃ t, token_exchange W = Ok t ∧ url = FCM_URL s ∧
          headers = request_headers ("Bearer " +:+ t)) ).
Proof.
  destruct s as [u h tr]. revert r s'.
  intros r s'. send_paths W h M tok; intros Hevs Hpost; trace_eq Hevs;
    in_list Hpost; (split; [by eexists|]).
  1-3: left; eexists; repeat split;
       by match goal with
          | H : negb (String.eqb _ _) = true |- _ =>
              apply negb_true_iff, String.eqb_neq in H
          end.
  all: right; split; [done|]; by eexists.
Qed.

(** What a call leaves in the state besides its events. *)
Lemma send_state_inv W (M tok : val) (s : state) r s' :
  _send_fcm_message W M tok s = (r, s') →
  objects s' = objects s ∧
  (FCM_URL s' = FCM_URL s ∨ FCM_URL s' = FCM_LEGACY_URL) ∧
  (is_truthy (objects s) tok = false → FCM_URL s' = FCM_URL s) ∧
  (∀ K, tok = VStr K → K ≠ EmptyString → FCM_URL s' = FCM_LEGACY_URL).
Proof.
  destruct s as [u h tr]. revert r s'. intros r s'.
  send_paths W h M tok; repeat split; auto; try done;
    intros K HKe HK; try discriminate; subst; simpl in *;
    apply String.eqb_neq in HK; rewrite HK in *; discriminate.
Qed.


(** X1. Every request [_send_fcm_message] makes has the compact JSON text of
    the message as its body and exactly two headers, [Authorization] and
    [Content-Type: application/json; UTF-8]; it is either a [key=K] request
    to the legacy endpoint, [K] being the non-empty [str] passed as token,
    or a [Bearer] request with the exchanged token to the current value of
    [FCM_URL]. *)
Theorem send_request_form W (M tok : val) (s : state) r s' evs url data headers
  (Hrun : _send_fcm_message W M tok s = (r, s'))
  (Hevs : trace s' = trace s ++ evs)
  (Hpost : Post url data headers ∈ evs) :
  (∃ body, reify (objects s) M = Some body ∧ data = dumps None body) ∧
  ( (∃ K, tok = VStr K ∧ K ≠ EmptyString ∧
          url = "https://fcm.googleapis.com/fcm/send" ∧
          headers = [("Authorization", "key=" +:+ K);
                     ("Content-Type", "application/json; UTF-8")])
  ∨ (is_truthy (objects s) tok = false ∧
     ∃ t, token_exchange W = Ok t ∧ url = FCM_URL s ∧
          headers = [("Authorization", "Bearer " +:+ t);
                     ("Content-Type", "application/json; UTF-8")]) ).
Proof. exact (send_request_inv W M tok s r s' evs url data headers Hrun Hevs Hpost). Qed.

Lemma send_request_form_witness :
  (∃ body, reify (objects module_init) (VStr "ping") = Some body ∧
           dumps None (JStr "ping") = dumps None body) ∧
  ( (∃ K, VStr "ABC123" = VStr K ∧ K ≠ EmptyString ∧
          FCM_LEGACY_URL = "https://fcm.googleapis.com/fcm/send" ∧
          request_headers "key=ABC123" =
            [("Authorization", "key=" +:+ K);
             ("Content-Type", "application/json; UTF-8")])
  ∨ (is_truthy (objects module_init) (VStr "ABC123") = false ∧
     ∃ t, token_exchange W_404 = Ok t ∧ FCM_LEGACY_URL = FCM_URL module_init ∧
          request_headers "key=ABC123" =
            [("Authorization", "Bearer " +:+ t);
             ("Content-Type", "application/json; UTF-8")]) ).
Proof.
  refine (send_request_form W_404 (VStr "ping") (VStr "ABC123") module_init
            (Ok ())
            (mkState FCM_LEGACY_URL []
               [Post FCM_LEGACY_URL (dumps None (JStr "ping"))
                     (request_headers "key=ABC123");
                Print "Unable to send message to Firebase";
                Print "<Response [404]>";
                Print "Not Found"])
            _ FCM_LEGACY_URL (dumps None (JStr "ping"))
            (request_headers "key=ABC123") _ _ _).
  - vm_compute. reflexivity.
  - reflexivity.
  - apply list_elem_of_here.
Defined.

(** X2. Sending never modifies an object: the heap after
    [_send_fcm_message] is the heap before it.  [FCM_URL] is left alone
    when the token is falsy, and is set to the legacy endpoint whenever the
    token is a non-empty [str], whatever happens to the request after
    that. *)
Theorem send_state_effects W (M tok : val) (s : state) r s'
  (Hrun : _send_fcm_message W M tok s = (r, s')) :
  objects s' = objects s ∧
  (is_truthy (objects s) tok = false → FCM_URL s' = FCM_URL s) ∧
  (∀ K, tok = VStr K → K ≠ EmptyString →
        FCM_URL s' = "https://fcm.googleapis.com/fcm/send").
Proof.
  destruct (send_state_inv W M tok s r s' Hrun) as (Ho & _ & Hf & Hl). done.
Qed.

Lemma send_state_effects_witness :
  let run := _send_fcm_message W_down (VStr "ping") (VStr "ABC123") module_init in
  objects run.2 = objects module_init ∧
  (is_truthy (objects module_init) (VStr "ABC123") = false →
   FCM_URL run.2 = FCM_URL module_init) ∧
  (∀ K, VStr "ABC123" = VStr K → K ≠ EmptyString →
        FCM_URL run.2 = "https://fcm.googleapis.com/fcm/send").
Proof.
  cbv zeta.
  apply (send_state_effects W_down (VStr "ping") (VStr "ABC123") module_init
           (Raise (LibraryError "ConnectionError"))).
  vm_compute. reflexivity.
Defined.

(** X3. The switch to the legacy endpoint is permanent: once [FCM_URL] holds
    the legacy endpoint, it still does after any further call of
    [_send_fcm_message], and every request of that call goes to the legacy
    endpoint, whether it is authorised by a key or by a bearer token. *)
Theorem send_legacy_url_sticky W (M tok : val) (s : state) r s' evs
  (Hurl : FCM_URL s = FCM_LEGACY_URL)
  (Hrun : _send_fcm_message W M tok s = (r, s'))
  (Hevs : trace s' = trace s ++ evs) :
  FCM_URL s' = FCM_LEGACY_URL ∧
  ∀ url data headers, Post url data headers ∈ evs →
    url = "https://fcm.googleapis.com/fcm/send".
Proof.
  split.
  - destruct (send_state_inv W M tok s r s' Hrun) as (_ & [Hu|Hu] & _);
      congruence.
  - intros url data headers Hpost.
    destruct (send_request_inv W M tok s r s' evs url data headers Hrun Hevs Hpost)
      as (_ & [(K & _ & _ & -> & _)|(_ & t & _ & -> & _)]); [done|].
    by rewrite Hurl.
Qed.

Lemma send_legacy_url_sticky_witness :
  let s := mkState FCM_LEGACY_URL [] [] in
  let run := _send_fcm_message W_ok (VStr "ping") VNone s in
  FCM_URL run.2 = FCM_LEGACY_URL ∧
  ∀ url data headers, Post url data headers ∈ trace run.2 →
    url = "https://fcm.googleapis.com/fcm/send".
Proof.
  cbv zeta.
  apply (send_legacy_url_sticky W_ok (VStr "ping") VNone
           (mkState FCM_LEGACY_URL [] []) (Ok ())).
  - reflexivity.
  - vm_compute. reflexivity.
  - reflexivity.
Defined.

(** X4. When [requests.post] raises, the exception comes out of
    [_send_fcm_message]: that request was the only one, nothing is printed
    after it, and no outcome line is reported. *)
Theorem send_transport_error_propagates W (M tok : val) (s : state) r s' evs
    url data headers e
  (Hrun : _send_fcm_message W M tok s = (r, s'))
  (Hevs : trace s' = trace s ++ evs)
  (Hpost : Post url data headers ∈ evs)
  (Hfail : http_post W url data headers = Raise e) :
  r = Raise e ∧
  ∃ pre, Forall not_post pre ∧ evs = pre ++ [Post url data headers].
Proof.
  destruct (send_inv W M tok s r s' Hrun) as (pre & Hpre & [[Htr _]|Hsent]).
  - rewrite Hevs in Htr. apply app_inv_head in Htr. subst evs.
    rewrite Forall_forall in Hpre. by destruct (Hpre _ Hpost url data headers).
  - destruct Hsent as (url' & data' & headers' & Hcase).
    assert (Hin : ∀ tl, Forall is_print tl →
              Post url data headers ∈ pre ++ Post url' data' headers' :: tl →
              url' = url ∧ data' = data ∧ headers' = headers).
    { intros tl Htl [Hin|Hin]%elem_of_app.
      - rewrite Forall_forall in Hpre. by destruct (Hpre _ Hin url data headers).
      - apply elem_of_cons in Hin as [[= -> -> ->]|Hin]; [done|].
        rewrite Forall_forall in Htl. by destruct (Htl _ Hin). }
    destruct (http_post W url' data' headers') as [resp'|e'] eqn:Hp.
    + destruct Hcase as [-> Htr]. rewrite Hevs in Htr.
      apply app_inv_head in Htr. subst evs.
      destruct (Hin _ (report_prints resp') Hpost) as (-> & -> & ->).
      congruence.
    + destruct Hcase as [-> Htr]. rewrite Hevs in Htr.
      apply app_inv_head in Htr. subst evs.
      destruct (Hin [] (Forall_nil_2 _) Hpost) as (-> & -> & ->).
      rewrite Hfail in Hp. injection Hp as <-.
      split; [done|]. by exists pre.
Qed.

Lemma send_transport_error_propagates_witness :
  let post := Post (FCM_URL module_init) (dumps None (JStr "ping"))
                   (request_headers "Bearer ya29.token") in
  @Raise unit (LibraryError "ConnectionError")
    = Raise (LibraryError "ConnectionError")
  ∧ ∃ pre, Forall not_post pre ∧
      [LoadKeyFile "service-account.json" SCOPES; Refresh; post] = pre ++ [post].
Proof.
  cbv zeta.
  refine (send_transport_error_propagates W_down (VStr "ping") VNone module_init
            (Raise (LibraryError "ConnectionError"))
            (mkState (FCM_URL module_init) []
               [LoadKeyFile "service-account.json" SCOPES; Refresh;
                Post (FCM_URL module_init) (dumps None (JStr "ping"))
                     (request_headers "Bearer ya29.token")])
            _ _ _ _ (LibraryError "ConnectionError") _ _ _ _).
  - vm_compute. reflexivity.
  - reflexivity.
  - apply list_elem_of_further, list_elem_of_further, list_elem_of_here.
  - reflexivity.
Defined.

(** X5. [_build_common_message] and [_build_override_message] (in either
    mode, the failing one included) leave the tree of every value that
    existed before the call as it was, and the object they return is a new
    one: the in-place updates of the override builder only reach objects
    created during the same call. *)
Theorem builders_preserve_existing (T : val) (b : bool) (s : state)
    (v : val) (j : json)
  (Hv : reify (objects s) v = Some j) :
  ∃ r1 s1 r2 s2,
    _build_common_message T b s = (r1, s1) ∧
    _build_override_message T b s = (r2, s2) ∧
    reify (objects s1) v = Some j ∧
    reify (objects s2) v = Some j ∧
    (∀ l, r1 = Ok (VRef l) ∨ r2 = Ok (VRef l) → objects s !! l = None).
Proof.
  destruct b.
  - eexists _, _, _, _.
    split; [apply build_common_run|].
    split; [apply build_override_v1_run|]. simpl.
    split; [by apply reify_app|]. split; [by apply reify_app|].
    intros l [[= <-]|[= <-]]; apply lookup_ge_None_2; lia.
  - eexists _, _, _, _.
    split; [apply build_common_run|].
    split; [apply build_override_legacy_run|]. simpl.
    split; [by apply reify_app|]. split; [by apply reify_app|].
    intros l [[= <-]|[=]]. apply lookup_ge_None_2; lia.
Qed.

Lemma builders_preserve_existing_witness :
  let s := (_build_common_message (VStr "device-1") true module_init).2 in
  let j := common_json (JStr "device-1") true in
  reify (objects s) (VRef 2) = Some j ∧
  ∃ r1 s1 r2 s2,
    _build_common_message (VStr "device-2") true s = (r1, s1) ∧
    _build_override_message (VStr "device-2") true s = (r2, s2) ∧
    reify (objects s1) (VRef 2) = Some j ∧
    reify (objects s2) (VRef 2) = Some j ∧
    (∀ l, r1 = Ok (VRef l) ∨ r2 = Ok (VRef l) → objects s !! l = None).
Proof.
  cbv zeta. split; [vm_compute; reflexivity|].
  apply (builders_preserve_existing (VStr "device-2") true
           (_build_common_message (VStr "device-1") true module_init).2
           (VRef 2) (common_json (JStr "device-1") true)).
  vm_compute. reflexivity.
Defined.

(** The library calls of one dispatcher run: at most one key-file load, one
    token exchange and one [requests.post], the first two only without a
    legacy key. *)
Lemma send_calls W (M tok : val) (s : state) r s' evs :
  _send_fcm_message W M tok s = (r, s') →
  trace s' = trace s ++ evs →
  (count_posts evs ≤ 1)%nat ∧
  (count_refreshes evs ≤ 1)%nat ∧
  (count_loads evs ≤ 1)%nat ∧
  (count_refreshes evs ≤ count_loads evs)%nat ∧
  (is_truthy (objects s) tok = true → count_loads evs = 0%nat) ∧
  (r = Ok () → count_posts evs = 1%nat).
Proof.
  destruct s as [u h tr]. revert r s'. intros r s'.
  send_paths W h M tok; intros Hevs; trace_eq Hevs;
    unfold count_posts, count_refreshes, count_loads; simpl;
    repeat split; try lia; try done.
Qed.

(** X6. One invocation of [main] calls [requests.post] at most once, and
    loads the key file and runs the token exchange at most once each, the
    exchange only after a load and both only when no legacy key is given:
    at most two network calls, of which at most one is the send to FCM.
    When [main] returns normally it has posted exactly once if the
    [--message] value was recognised and not at all otherwise. *)
Theorem main_at_most_one_request W (args : Namespace.t) (s : state) r s'
  (Hrun : main W args s = (r, s')) :
  ∃ evs,
    trace s' = trace s ++ evs ∧
    (count_posts evs ≤ 1)%nat ∧
    (count_refreshes evs ≤ 1)%nat ∧
    (count_loads evs ≤ 1)%nat ∧
    (count_refreshes evs ≤ count_loads evs)%nat ∧
    (is_truthy [] (pyopt (Namespace.use_http args)) = true →
     count_loads evs = 0%nat) ∧
    (r = Ok () →
     (count_posts evs = 1%nat ↔
      Namespace.message args = Some "common-message"
      ∨ Namespace.message args = Some "override-message")).
Proof.
  assert (Hsent : ∀ msg s_mid hdr body,
            trace s_mid = trace s ++ [Print hdr; Print body] →
            _send_fcm_message W msg (pyopt (Namespace.use_http args)) s_mid
              = (r, s') →
            ∃ evs, trace s' = trace s ++ evs ∧
              (count_posts evs ≤ 1)%nat ∧ (count_refreshes evs ≤ 1)%nat ∧
              (count_loads evs ≤ 1)%nat ∧
              (count_refreshes evs ≤ count_loads evs)%nat ∧
              (is_truthy [] (pyopt (Namespace.use_http args)) = true →
               count_loads evs = 0%nat) ∧
              (r = Ok () → count_posts evs = 1%nat)).
  { intros msg s_mid hdr body Hmid Hsend.
    destruct (send_trace_extends W msg _ s_mid r s' Hsend) as [evs Hevs].
    destruct (send_calls W msg _ s_mid r s' evs Hsend Hevs)
      as (Hp & Hr & Hl & Hrl & Hk & Hone).
    rewrite (is_truthy_pyopt _ [] _) in Hk.
    exists ([Print hdr; Print body] ++ evs).
    rewrite Hevs, Hmid, <- app_assoc. split; [done|].
    unfold count_posts, count_refreshes, count_loads in *.
    rewrite !List.filter_app, !length_app. simpl. done. }
  destruct (decide (Namespace.message args = Some "common-message")) as [Hc|Hc].
  - rewrite (main_common_run W args s Hc) in Hrun. cbv zeta in Hrun.
    edestruct Hsent as (evs & Htr & Hp & Hr & Hl & Hrl & Hk & Hone);
      [|exact Hrun|]; [done|].
    exists evs. do 6 (split; [done|]). intros Hr'. split; auto.
  - destruct (decide (Namespace.message args = Some "override-message")) as [Ho|Ho].
    + destruct (is_truthy (objects s) (pyopt (Namespace.use_http args))) eqn:Hk'.
      * rewrite (main_override_legacy_run W args s Ho Hk') in Hrun.
        injection Hrun as <- <-. exists []. simpl.
        split; [by rewrite app_nil_r|].
        unfold count_posts, count_refreshes, count_loads. simpl.
        do 5 (split; [first [lia | done]|]). discriminate.
      * rewrite (main_override_v1_run W args s Ho Hk') in Hrun. cbv zeta in Hrun.
        edestruct Hsent as (evs & Htr & Hp & Hr & Hl & Hrl & Hk & Hone);
          [|exact Hrun|]; [done|].
        exists evs. do 6 (split; [done|]). intros Hr'. split; auto.
    + rewrite (main_usage_run W args s Hc Ho) in Hrun.
      injection Hrun as <- <-. exists [Print usage]. simpl.
      split; [done|].
      unfold count_posts, count_refreshes, count_loads. simpl.
      do 5 (split; [first [lia | done]|]).
      intros _. split; [discriminate|tauto].
Qed.

Lemma main_at_most_one_request_witness :
  let args := Namespace.mk (Some "common-message") None (Some "device-1") in
  let run := script W_404 args in
  ∃ evs,
    trace run.2 = trace module_init ++ evs ∧
    (count_posts evs ≤ 1)%nat ∧
    (count_refreshes evs ≤ 1)%nat ∧
    (count_loads evs ≤ 1)%nat ∧
    (count_refreshes evs ≤ count_loads evs)%nat ∧
    (is_truthy [] (pyopt (Namespace.use_http args)) = true →
     count_loads evs = 0%nat) ∧
    (run.1 = Ok () →
     (count_posts evs = 1%nat ↔
      Namespace.message args = Some "common-message"
      ∨ Namespace.message args = Some "override-message")).
Proof.
  cbv zeta.
  apply (main_at_most_one_request W_404
           (Namespace.mk (Some "common-message") None (Some "device-1"))
           module_init).
  vm_compute. reflexivity.
Defined.

(** The request of a run of [main] that prints a body and then sends the
    object [msg] denoting it. *)
Lemma printed_then_sent W (msg tok : val) (s_mid : state) hdr body r s'
    url data headers :
  trace s_mid = [Print hdr; Print (dumps (Some 2%nat) body)] →
  reify (objects s_mid) msg = Some body →
  _send_fcm_message W msg tok s_mid = (r, s') →
  Post url data headers ∈ trace s' →
  data = dumps None body ∧
  Print (dumps (Some 2%nat) body) ∈ trace s' ∧
  ( (∃ K, tok = VStr K ∧ K ≠ EmptyString ∧ url = FCM_LEGACY_URL ∧
          headers = request_headers ("key=" +:+ K))
  ∨ (is_truthy (objects s_mid) tok = false ∧
     ∃ t, token_exchange W = Ok t ∧ url = FCM_URL s_mid ∧
          headers = request_headers ("Bearer " +:+ t)) ).
Proof.
  intros Hmid Hbody Hsend Hpost.
  destruct (send_trace_extends W msg tok s_mid r s' Hsend) as [evs Hevs].
  rewrite Hevs, Hmid in Hpost.
  apply elem_of_app in Hpost as [Hpost|Hpost]; [in_list Hpost|].
  destruct (send_request_inv W msg tok s_mid r s' evs url data headers
              Hsend Hevs Hpost) as ((body' & Hb & ->) & Hmode).
  rewrite Hbody in Hb. injection Hb as <-.
  split; [done|]. split; [|done].
  rewrite Hevs, Hmid. apply elem_of_app. left.
  apply list_elem_of_further, list_elem_of_here.
Qed.

(** X7. What the script puts on the wire agrees with what it printed and
    with the mode it runs in.  The body of its request is the compact JSON
    of the tree whose [indent=2] rendering was printed before; with a
    non-empty [--use-http=K] it is the legacy message, sent to the legacy
    endpoint with [key=K]; without one it is the v1 message (common or
    override, as [--message] says), sent to the v1 endpoint with the
    bearer token.  A missing [--token] gives the target [null]. *)
Theorem script_request_consistent W (args : Namespace.t) r s' url data headers
  (Hrun : script W args = (r, s'))
  (Hpost : Post url data headers ∈ trace s') :
  ∃ body,
    data = dumps None body ∧
    Print (dumps (Some 2%nat) body) ∈ trace s' ∧
    ( (∃ K, Namespace.use_http args = Some K ∧ K ≠ EmptyString ∧
            Namespace.message args = Some "common-message" ∧
            url = "https://fcm.googleapis.com/fcm/send" ∧
            headers = [("Authorization", "key=" +:+ K);
                       ("Content-Type", "application/json; UTF-8")] ∧
            body = JObj [("to", token_json args); ("data", notification_json)])
    ∨ (is_truthy [] (pyopt (Namespace.use_http args)) = false ∧
       ∃ t, token_exchange W = Ok t ∧
            url = "https://fcm.googleapis.com/v1/projects/<YOUR-PROJECT-ID>/messages:send" ∧
            headers = [("Authorization", "Bearer " +:+ t);
                       ("Content-Type", "application/json; UTF-8")] ∧
            ( (Namespace.message args = Some "common-message" ∧
               body = JObj [("message",
                             JObj [("token", token_json args);
                                   ("notification", notification_json)])])
            ∨ (Namespace.message args = Some "override-message" ∧
               body = JObj [("message",
                             JObj [("token", token_json args);
                                   ("notification", notification_json);
                                   ("android", android_json);
                                   ("apns", apns_json)])]) )) ).
Proof.
  unfold script in Hrun.
  destruct (decide (Namespace.message args = Some "common-message")) as [Hc|Hc].
  - rewrite (main_common_run W args module_init Hc) in Hrun. cbv zeta in Hrun.
    eapply (printed_then_sent W _ _ _ _ _ r s' url data headers)
      in Hrun as (-> & Hprinted & Hmode);
      [| reflexivity | apply common_reify, reify_pyopt | exact Hpost].
    eexists. split; [reflexivity|]. split; [exact Hprinted|].
    destruct Hmode as [(K & HK & Hne & -> & ->)|(Hf & t & Ht & -> & ->)].
    + left. exists K. destruct (Namespace.use_http args) as [K'|]; [|done].
      injection HK as ->. simpl. apply String.eqb_neq in Hne as Hne'.
      rewrite Hne'. done.
    + right. rewrite (is_truthy_pyopt _ [] _) in Hf. split; [done|].
      exists t. simpl objects. rewrite Hf. simpl. split; [done|].
      split; [done|]. split; [done|]. by left.
  - destruct (decide (Namespace.message args = Some "override-message")) as [Ho|Ho].
    + destruct (is_truthy [] (pyopt (Namespace.use_http args))) eqn:Hk.
      * rewrite (main_override_legacy_run W args module_init Ho Hk) in Hrun.
        injection Hrun as <- <-. simpl in Hpost. by apply elem_of_nil in Hpost.
      * rewrite (main_override_v1_run W args module_init Ho Hk) in Hrun.
        cbv zeta in Hrun.
        eapply (printed_then_sent W _ _ _ _ _ r s' url data headers)
          in Hrun as (-> & Hprinted & Hmode);
          [| reflexivity | apply override_reify, reify_pyopt | exact Hpost].
        eexists. split; [reflexivity|]. split; [exact Hprinted|].
        destruct Hmode as [(K & HK & Hne & _)|(Hf & t & Ht & -> & ->)].
        -- destruct (Namespace.use_http args) as [K'|]; [|done].
           injection HK as ->. simpl in Hk. apply String.eqb_neq in Hne.
           by rewrite Hne in Hk.
        -- right. split; [done|]. exists t. split; [done|].
           split; [done|]. split; [done|]. by right.
    + rewrite (main_usage_run W args module_init Hc Ho) in Hrun.
      injection Hrun as <- <-. simpl in Hpost. in_list Hpost.
Qed.

Lemma script_request_consistent_witness :
  let args := Namespace.mk (Some "override-message") None None in
  let v1 := "https://fcm.googleapis.com/v1/projects/<YOUR-PROJECT-ID>/messages:send" in
  let tree :=
    JObj [("message",
           JObj [("token", JNull); ("notification", notification_json);
                 ("android", android_json); ("apns", apns_json)])] in
  Post v1 (dumps None tree) (request_headers "Bearer ya29.token")
    ∈ trace (script W_ok args).2 ∧
  ∃ body,
    dumps None tree = dumps None body ∧
    Print (dumps (Some 2%nat) body) ∈ trace (script W_ok args).2.
Proof.
  cbv zeta.
  assert (Hpost :
    Post "https://fcm.googleapis.com/v1/projects/<YOUR-PROJECT-ID>/messages:send"
         (dumps None
            (JObj [("message",
                    JObj [("token", JNull); ("notification", notification_json);
                          ("android", android_json); ("apns", apns_json)])]))
         (request_headers "Bearer ya29.token")
      ∈ trace (script W_ok (Namespace.mk (Some "override-message") None None)).2).
  { vm_compute. do 4 apply list_elem_of_further. apply list_elem_of_here. }
  split; [exact Hpost|].
  destruct (script_request_consistent W_ok
              (Namespace.mk (Some "override-message") None None)
              (script W_ok (Namespace.mk (Some "override-message") None None)).1
              (script W_ok (Namespace.mk (Some "override-message") None None)).2
              _ _ _ (surjective_pairing _) Hpost)
    as (body & Hdata & Hprinted & _).
  by exists body.
Defined.

(** X8. An empty [--use-http] value counts as no legacy key: the run of
    [main] is the run without the option, with the same result, the same
    events and the same final state (v1 message, bearer token, v1
    endpoint). *)
Theorem empty_use_http_same_as_absent W (m t : option string) (s : state) :
  main W (Namespace.mk m (Some EmptyString) t) s
  = main W (Namespace.mk m None t) s.
Proof. reflexivity. Qed.
